(** * simple-prerender-service: the render cache and the request handlers

    A shallow embedding of [src/prerender-service.js]: the Express handlers
    [GET /render] and [POST /clear-cache], the time-expiring cache they
    share, and the headless-browser session they drive.  Time is the
    millisecond clock of [Date.now()]; awaiting a browser call advances it.
    A request parameter ([req.query.url], [req.body.url]) is [undefined] or
    a string.  The [/health] route and the rate-limiting, CORS and JSON
    middleware are outside the model. *)

From stdpp Require Import gmap strings list fin_maps.

Local Open Scope string_scope.
Local Open Scope list_scope.
Local Open Scope N_scope.

(** ** The render cache *)

Module NodeCache.

(** Modelled from the spec: the implementation of the [node-cache] package
    ([get], [set], [del], [flushAll] and the periodic expiry sweep) is
    missing from src/, which only constructs it (lines 11-14) and calls it.
    The definitions below follow the spec's CacheEntry data model and the
    Render Cache contract: an entry carries its value and an absolute
    expiry, [set] stamps insertion time + TTL, [get] shows an entry only
    while [now < expiresAt], [del] removes one key, [flushAll] removes all,
    and the sweep drops every entry whose expiry has passed.  The
    diagnostic counters of [getStats] are not modelled. *)

Record Options := { stdTTL : N; checkperiod : N }.

Record Entry := { value : string; expiresAt : N }.

(** [stdTTL] is given in seconds, the clock counts milliseconds. *)
Definition ttl_ms (o : Options) : N := stdTTL o * 1000.

Definition live (now : N) (e : Entry) : bool := bool_decide (now < expiresAt e).

Definition get (now : N) (k : string) (c : gmap string Entry) : option string :=
  match c !! k with
  | Some e => if live now e then Some (value e) else None
  | None => None
  end.

Definition set (o : Options) (now : N) (k v : string)
    (c : gmap string Entry) : gmap string Entry :=
  <[k := {| value := v; expiresAt := now + ttl_ms o |}]> c.

Definition del (k : string) (c : gmap string Entry) : gmap string Entry :=
  delete k c.

Definition flushAll (c : gmap string Entry) : gmap string Entry := ∅.

(** The background pass run every [checkperiod] seconds (and any lazy
    purge): physically drops the entries that have expired at [now]. *)
Definition sweep (now : N) (c : gmap string Entry) : gmap string Entry :=
  filter (λ kv, live now kv.2 = true) c.

End NodeCache.

(** [const cache = new NodeCache({ stdTTL: 3600, checkperiod: 600 })] *)
Definition cache_options : NodeCache.Options :=
  {| NodeCache.stdTTL := 3600; NodeCache.checkperiod := 600 |}.

(** ** JavaScript values, completions and the handler monad *)

(** A thrown value, read through its [message] property. *)
Record JsError := { message : string }.

(** How a statement completes: normally with a value, by the handler's
    [return], or by a [throw]. *)
Inductive Completion (A : Type) : Type :=
  | Normal (a : A)
  | Return
  | Throw (e : JsError).
Arguments Normal {A} a.
Arguments Return {A}.
Arguments Throw {A} e.

(** [undefined] or a string; the empty string and [undefined] are falsy. *)
Definition truthy (v : option string) : bool :=
  match v with
  | Some s => negb (String.eqb s "")
  | None => false
  end.

(** Interpolation into a template literal. *)
Definition js_string (v : option string) : string := default "undefined" v.

Inductive Body :=
  | Text (markup : string)
  | Json (fields : list (string * string)).

Record Response := { status : N; content_type : string; body : Body }.

(** [res.status(code).json(obj)] *)
Definition json_response (code : N) (fields : list (string * string)) : Response :=
  {| status := code; content_type := "application/json"; body := Json fields |}.

(** [res.set('Content-Type', 'text/html').send(html)] *)
Definition html_response (html : string) : Response :=
  {| status := 200; content_type := "text/html"; body := Text html |}.

(** ** The browser automation capability *)

Record LaunchOptions := { headless : string; args : list string }.
Record Viewport := { width : N; height : N }.
Record GotoOptions := { waitUntil : string; timeout : N }.

(** The handle [puppeteer.launch] resolves to. *)
Inductive Browser := Chromium.

(** What awaiting a call yields: the time it took and how the promise
    settled (rejected with an error, or resolved with a value). *)
Record Awaited (A : Type) := { took : N; settled : JsError + A }.
Arguments took {A} _.
Arguments settled {A} _.

(** One browser session as the handler sees it: the outcome of every call
    the handler can make, as a function of the call's arguments. *)
Record Puppeteer := {
  launch : LaunchOptions → Awaited Browser;
  newPage : Awaited unit;
  setUserAgent : string → Awaited unit;
  setViewport : Viewport → Awaited unit;
  goto : string → GotoOptions → Awaited unit;
  waitForTimeout : N → Awaited unit;
  content : Awaited string;
  close : Awaited unit }.

(** ** Observable effects *)

Inductive Event :=
  | ConsoleLog (msg : string)
  | ConsoleError (msg : string)
  | CacheGet (k : string)
  | CacheSet (k v : string)
  | CacheDel (k : string)
  | CacheFlushAll
  | Launch (o : LaunchOptions)
  | NewPage
  | SetUserAgent (ua : string)
  | SetViewport (v : Viewport)
  | Goto (url : string) (o : GotoOptions)
  | WaitForTimeout (ms : N)
  | Content
  | Close
  | Send (r : Response).

(** The process-wide cache, the clock, the effects so far (oldest first)
    and the handler's [let browser] binding. *)
Record State := {
  cache : gmap string NodeCache.Entry;
  clock : N;
  trace : list Event;
  browser : option Browser }.

Definition M (A : Type) : Type := State → Completion A * State.

#[global] Instance M_ret : MRet M := λ A a s, (Normal a, s).

#[global] Instance M_bind : MBind M := λ A B f m s,
  match m s with
  | (Normal a, s') => f a s'
  | (Return, s') => (Return, s')
  | (Throw e, s') => (Throw e, s')
  end.

Definition throw {A} (e : JsError) : M A := λ s, (Throw e, s).

(** The handler's [return] statement (Express ignores the value). *)
Definition return_ {A} : M A := λ s, (Return, s).

(** [try { body } catch (error) { handler }] *)
Definition try_catch {A} (body : M A) (handler : JsError → M A) : M A := λ s,
  match body s with
  | (Throw e, s') => handler e s'
  | r => r
  end.

(** [try { body } catch (error) { handler } finally { fin }]: the [finally]
    block runs on every completion of the first two, and an abrupt
    completion of [fin] takes the place of theirs. *)
Definition try_catch_finally {A} (body : M A) (handler : JsError → M A)
    (fin : M unit) : M A := λ s,
  let '(r, s1) := try_catch body handler s in
  match fin s1 with
  | (Normal _, s2) => (r, s2)
  | (Return, s2) => (Return, s2)
  | (Throw e, s2) => (Throw e, s2)
  end.

Definition emit (e : Event) : M unit := λ s,
  (Normal tt, {| cache := cache s; clock := clock s;
                 trace := trace s ++ [e]; browser := browser s |}).

Definition tick (d : N) : M unit := λ s,
  (Normal tt, {| cache := cache s; clock := clock s + d;
                 trace := trace s; browser := browser s |}).

(** [await call]: the call is made, time passes, the promise settles. *)
Definition await {A} (call : Event) (o : Awaited A) : M A :=
  emit call ;; tick (took o) ;;
  match settled o with
  | inl e => throw e
  | inr a => mret a
  end.

Definition set_browser (b : option Browser) : M unit := λ s,
  (Normal tt, {| cache := cache s; clock := clock s;
                 trace := trace s; browser := b |}).

Definition get_browser : M (option Browser) := λ s, (Normal (browser s), s).

Definition update_cache
    (f : N → gmap string NodeCache.Entry → gmap string NodeCache.Entry) : M unit := λ s,
  (Normal tt, {| cache := f (clock s) (cache s); clock := clock s;
                 trace := trace s; browser := browser s |}).

Definition read_cache (k : string) : M (option string) := λ s,
  (Normal (NodeCache.get (clock s) k (cache s)), s).

Definition cache_get (k : string) : M (option string) :=
  emit (CacheGet k) ;; read_cache k.

Definition cache_set (k v : string) : M unit :=
  emit (CacheSet k v) ;; update_cache (λ now, NodeCache.set cache_options now k v).

Definition cache_del (k : string) : M unit :=
  emit (CacheDel k) ;; update_cache (λ _, NodeCache.del k).

Definition cache_flushAll : M unit :=
  emit CacheFlushAll ;; update_cache (λ _, NodeCache.flushAll).

Definition console_log (msg : string) : M unit := emit (ConsoleLog msg).
Definition console_error (msg : string) : M unit := emit (ConsoleError msg).
Definition res_send (r : Response) : M unit := emit (Send r).

(** ** The handlers *)

Definition launch_options : LaunchOptions :=
  {| headless := "new";
     args := ["--no-sandbox"; "--disable-setuid-sandbox";
              "--disable-dev-shm-usage"; "--disable-accelerated-2d-canvas";
              "--no-first-run"; "--no-zygote"; "--disable-gpu"] |}.

Definition user_agent : string := "Mozilla/5.0 (compatible; PrerenderBot/1.0)".
Definition viewport : Viewport := {| width := 1200; height := 800 |}.
Definition goto_options : GotoOptions :=
  {| waitUntil := "networkidle0"; timeout := 30000 |}.
Definition settle_delay : N := 2000.

(** [`prerender:${url}`] *)
Definition cacheKey (url : string) : string := "prerender:" +:+ url.

Section Service.

(** [new URL(url)] is the platform's parser, absent from src/: the
    handler only observes whether it throws.  [url_parses url] says it
    does not. *)
Variable url_parses : string → bool.

Definition new_URL (url : string) : M unit :=
  if url_parses url then mret tt else throw {| message := "Invalid URL" |}.

(** The body of the handler's [try] block (lines 59-97). *)
Definition render_attempt (P : Puppeteer) (url key : string) : M unit :=
  b ← await (Launch launch_options) (launch P launch_options);
  set_browser (Some b) ;;
  await NewPage (newPage P) ;;
  await (SetUserAgent user_agent) (setUserAgent P user_agent) ;;
  await (SetViewport viewport) (setViewport P viewport) ;;
  await (Goto url goto_options) (goto P url goto_options) ;;
  await (WaitForTimeout settle_delay) (waitForTimeout P settle_delay) ;;
  html ← await Content (content P);
  cache_set key html ;;
  console_log ("Successfully prerendered: " +:+ url) ;;
  res_send (html_response html).

(** [app.get('/render', async (req, res) => ...)], with [q] the value of
    [req.query.url]. *)
Definition get_render (P : Puppeteer) (q : option string) : M unit :=
  (if negb (truthy q)
   then res_send (json_response 400 [("error", "URL parameter is required")]) ;;
        return_
   else mret tt) ;;
  let url := js_string q in
  try_catch (new_URL url)
    (λ _, res_send (json_response 400 [("error", "Invalid URL provided")]) ;;
          return_) ;;
  let key := cacheKey url in
  cachedHtml ← cache_get key;
  (if truthy cachedHtml
   then console_log ("Cache hit for: " +:+ url) ;;
        res_send (html_response (js_string cachedHtml)) ;;
        return_
   else mret tt) ;;
  console_log ("Prerendering: " +:+ url) ;;
  set_browser None ;;
  try_catch_finally
    (render_attempt P url key)
    (λ error,
       console_error ("Prerender error: " +:+ message error) ;;
       res_send (json_response 500 [("error", "Failed to prerender page");
                                    ("message", message error)]))
    (b ← get_browser;
     if b is Some _ then await Close (close P) else mret tt).

(** [app.post('/clear-cache', (req, res) => ...)], with [b] the value of
    [req.body.url]. *)
Definition post_clear_cache (b : option string) : M unit :=
  if truthy b
  then cache_del (cacheKey (js_string b)) ;;
       res_send (json_response 200
                   [("message", "Cache cleared for " +:+ js_string b)])
  else cache_flushAll ;;
       res_send (json_response 200 [("message", "All cache cleared")]).

(** One request served at time [now] against the cache [c]. *)
Definition serve {A} (handler : M A) (now : N)
    (c : gmap string NodeCache.Entry) : Completion A * State :=
  handler {| cache := c; clock := now; trace := []; browser := None |}.

Definition GET_render (P : Puppeteer) (q : option string) (now : N)
    (c : gmap string NodeCache.Entry) : State :=
  (serve (get_render P q) now c).2.

Definition POST_clear_cache (b : option string) (now : N)
    (c : gmap string NodeCache.Entry) : State :=
  (serve (post_clear_cache b) now c).2.

End Service.

(** ** Test doubles *)

(** Modelled from the spec: the WHATWG [URL] parser behind [new URL(url)]
    is a platform built-in missing from src/.  VALIDATE_URL asks that the
    input "parse as an absolute URL (scheme + host)": a non-empty scheme,
    the separator [://], and a non-empty host.  It only instantiates
    [url_parses] in the concrete runs below; every theorem of the service
    holds for any parser. *)
Fixpoint host_after_scheme (s : string) : option string :=
  match s with
  | EmptyString => None
  | String _ s' =>
      if String.prefix "://" s'
      then Some (String.substring 3 (String.length s' - 3) s')
      else host_after_scheme s'
  end.

Definition absolute_url (s : string) : bool :=
  match host_after_scheme s with
  | Some host => negb (String.eqb host "") && negb (String.prefix "/" host)
  | None => false
  end.

(** A second double for [new URL(url)].  Without a base URL the platform's
    parser (the URL Standard, not under src/) fails on an input that does
    not start with a scheme: an ASCII letter, then letters, digits, [+],
    [-] or [.], then a colon.  For [file:] and for the schemes that are not
    special ([mailto:], [data:], ...) it asks for nothing more, in
    particular for no host.  [has_scheme] is that test; it stands for
    [new URL] on such inputs, free of spaces and control characters. *)
Definition is_alpha (a : Ascii.ascii) : bool :=
  let n := Ascii.N_of_ascii a in
  (65 <=? n) && (n <=? 90) || (97 <=? n) && (n <=? 122).

Definition is_scheme_char (a : Ascii.ascii) : bool :=
  let n := Ascii.N_of_ascii a in
  is_alpha a || (48 <=? n) && (n <=? 57) || (n =? 43) || (n =? 45) || (n =? 46).

Fixpoint scheme_ends (s : string) : bool :=
  match s with
  | EmptyString => false
  | String a s' =>
      if Ascii.N_of_ascii a =? 58 then true
      else is_scheme_char a && scheme_ends s'
  end.

Definition has_scheme (s : string) : bool :=
  match s with
  | EmptyString => false
  | String a s' => is_alpha a && scheme_ends s'
  end.

Definition resolved {A} (d : N) (a : A) : Awaited A :=
  {| took := d; settled := inr a |}.

Definition rejected {A} (d : N) (msg : string) : Awaited A :=
  {| took := d; settled := inl {| message := msg |} |}.

(** A browser whose every call resolves and whose page serialises to [html]. *)
Definition renders (html : string) : Puppeteer :=
  {| launch := λ _, resolved 400 Chromium;
     newPage := resolved 20 tt;
     setUserAgent := λ _, resolved 1 tt;
     setViewport := λ _, resolved 1 tt;
     goto := λ _ _, resolved 900 tt;
     waitForTimeout := λ ms, resolved ms tt;
     content := resolved 5 html;
     close := resolved 50 tt |}.

(** A browser whose navigation is rejected with [msg] once the navigation
    timeout has run out. *)
Definition navigation_fails (msg : string) : Puppeteer :=
  {| launch := λ _, resolved 400 Chromium;
     newPage := resolved 20 tt;
     setUserAgent := λ _, resolved 1 tt;
     setViewport := λ _, resolved 1 tt;
     goto := λ _ o, rejected (timeout o) msg;
     waitForTimeout := λ ms, resolved ms tt;
     content := resolved 5 "";
     close := resolved 50 tt |}.

(** The same browser with another outcome for [browser.close()]. *)
Definition with_close (cl : Awaited unit) (P : Puppeteer) : Puppeteer :=
  {| launch := launch P; newPage := newPage P;
     setUserAgent := setUserAgent P; setViewport := setViewport P;
     goto := goto P; waitForTimeout := waitForTimeout P;
     content := content P; close := cl |}.

(** The cache of the spec's examples: [https://example.com] rendered at
    time 0 to [<html>CACHED</html>]. *)
Definition example_cache : gmap string NodeCache.Entry :=
  NodeCache.set cache_options 0 (cacheKey "https://example.com")
    "<html>CACHED</html>" ∅.

(** ** Reading a run *)

(** The responses written to [res], oldest first. *)
Definition sends (tr : list Event) : list Response :=
  omap (λ e, if e is Send r then Some r else None) tr.

Definition renderer_call (e : Event) : bool :=
  match e with
  | Launch _ | NewPage | SetUserAgent _ | SetViewport _
  | Goto _ _ | WaitForTimeout _ | Content | Close => true
  | _ => false
  end.

Definition cache_access (e : Event) : bool :=
  match e with
  | CacheGet _ | CacheSet _ _ | CacheDel _ | CacheFlushAll => true
  | _ => false
  end.

Definition cache_write (e : Event) : bool :=
  match e with
  | CacheSet _ _ | CacheDel _ | CacheFlushAll => true
  | _ => false
  end.

Definition is_launch (e : Event) : bool := if e is Launch _ then true else false.
Definition is_close (e : Event) : bool := if e is Close then true else false.

(** The calls the handler makes on the browser and its page. *)
Definition renderer_calls (tr : list Event) : list Event :=
  List.filter renderer_call tr.

(** The browser calls of a render that runs to the end, before the release. *)
Definition script (url : string) : list Event :=
  [Launch launch_options; NewPage; SetUserAgent user_agent;
   SetViewport viewport; Goto url goto_options;
   WaitForTimeout settle_delay; Content].

Definition and_then {A B} (x : JsError + A) (k : A → JsError + B) : JsError + B :=
  match x with
  | inl e => inl e
  | inr a => k a
  end.

(** How the render of [url] ends on the browser [P]: the first rejection
    among the awaited calls, or else the serialised page. *)
Definition rendered (P : Puppeteer) (url : string) : JsError + string :=
  and_then (settled (launch P launch_options)) (λ _,
  and_then (settled (newPage P)) (λ _,
  and_then (settled (setUserAgent P user_agent)) (λ _,
  and_then (settled (setViewport P viewport)) (λ _,
  and_then (settled (goto P url goto_options)) (λ _,
  and_then (settled (waitForTimeout P settle_delay)) (λ _,
  settled (content P))))))).

(** The time a render that runs to the end has taken when the markup is
    cached. *)
Definition render_time (P : Puppeteer) (url : string) : N :=
  took (launch P launch_options) + took (newPage P)
  + took (setUserAgent P user_agent) + took (setViewport P viewport)
  + took (goto P url goto_options) + took (waitForTimeout P settle_delay)
  + took (content P).

(** The release at the end of a render: [browser.close()] is called when,
    and only when, [puppeteer.launch] resolved. *)
Definition release (P : Puppeteer) : list Event :=
  if settled (launch P launch_options) is inr _ then [Close] else [].

(** The 500 response of the [catch] block. *)
Definition render_failed (e : JsError) : Response :=
  json_response 500 [("error", "Failed to prerender page"); ("message", message e)].

(** A browser call made with the arguments the handler fixes. *)
Definition configured (e : Event) : Prop :=
  match e with
  | Launch o => o = launch_options
  | SetUserAgent ua => ua = user_agent
  | SetViewport v => v = viewport
  | Goto _ o => o = goto_options
  | WaitForTimeout ms => ms = settle_delay
  | _ => True
  end.

(** The query values the handler answers with a 400. *)
Definition rejected_input (url_parses : string → bool) (q : option string) : bool :=
  match q with
  | None => true
  | Some u => String.eqb u "" || negb (url_parses u)
  end.

(** ** Requests served one after another *)

(** A request as the router sees it: [app.get('/render', ...)] with the
    browser behaviour it will meet, or [app.post('/clear-cache', ...)]. *)
Inductive Request :=
  | Render (P : Puppeteer) (q : option string)
  | ClearCache (b : option string).

Section Server.

Variable url_parses : string → bool.

Definition handle (r : Request) : M unit :=
  match r with
  | Render P q => get_render url_parses P q
  | ClearCache b => post_clear_cache b
  end.

(** The requests of [rs], each with its arrival time, served in order, each
    one to its end before the next (no interleaving at an [await]): the
    effects of all of them and the cache they leave. *)
Fixpoint serve_all (rs : list (N * Request)) (c : gmap string NodeCache.Entry)
    : list Event * gmap string NodeCache.Entry :=
  match rs with
  | [] => ([], c)
  | (now, r) :: rs' =>
      let s := (serve (handle r) now c).2 in
      let '(tr, c') := serve_all rs' (cache s) in
      (trace s ++ tr, c')
  end.

(** Every stored key is the key of a url that passes validation. *)
Definition keys_accepted (c : gmap string NodeCache.Entry) : Prop :=
  ∀ k e, c !! k = Some e →
    ∃ u, k = cacheKey u ∧ rejected_input url_parses (Some u) = false.

End Server.

(** How the handler's promise settles. *)
Definition promise {A} (r : Completion A * State) : option JsError :=
  match r.1 with
  | Throw e => Some e
  | _ => None
  end.

(** ** Lemmas on the cache model *)

Section CacheFacts.
Implicit Types (c : gmap string NodeCache.Entry) (k v : string) (now t : N).

Lemma get_set_eq o now t k v c :
  NodeCache.get t k (NodeCache.set o now k v c)
  = if bool_decide (t < now + NodeCache.ttl_ms o) then Some v else None.
Proof.
  unfold NodeCache.get, NodeCache.set. rewrite lookup_insert_eq. done.
Qed.

Lemma get_set_ne o now t k k' v c :
  k ≠ k' →
  NodeCache.get t k' (NodeCache.set o now k v c) = NodeCache.get t k' c.
Proof.
  intros Hne. unfold NodeCache.get, NodeCache.set.
  by rewrite lookup_insert_ne.
Qed.

Lemma get_del_eq t k c : NodeCache.get t k (NodeCache.del k c) = None.
Proof. unfold NodeCache.get, NodeCache.del. by rewrite lookup_delete_eq. Qed.

Lemma get_del_ne t k k' c :
  k ≠ k' → NodeCache.get t k' (NodeCache.del k c) = NodeCache.get t k' c.
Proof.
  intros Hne. unfold NodeCache.get, NodeCache.del.
  by rewrite lookup_delete_ne.
Qed.

Lemma get_flushAll t k c : NodeCache.get t k (NodeCache.flushAll c) = None.
Proof. unfold NodeCache.get, NodeCache.flushAll. by rewrite lookup_empty. Qed.

(** A sweep at [ts] leaves untouched what [get] shows at any [t >= ts]. *)
Lemma get_sweep_later ts t k c :
  ts <= t → NodeCache.get t k (NodeCache.sweep ts c) = NodeCache.get t k c.
Proof.
  intros Hle. unfold NodeCache.get, NodeCache.sweep.
  destruct (c !! k) as [e|] eqn:Hk.
  - destruct (NodeCache.live ts e) eqn:Hl.
    + erewrite (proj2 (map_lookup_filter_Some _ c k e)); [done|].
      split; [done|]. simpl. done.
    + rewrite (proj2 (map_lookup_filter_None _ c k)).
      * unfold NodeCache.live in *.
        rewrite bool_decide_eq_false in Hl.
        rewrite bool_decide_eq_false_2; [done | lia].
      * right. intros e' He'. simpl. congruence.
  - rewrite (proj2 (map_lookup_filter_None _ c k)); [done|]. by left.
Qed.

(** Whatever the sweep time, a swept cache never shows more than the
    cache it was swept from. *)
Lemma get_sweep_None ts t k c :
  NodeCache.get t k c = None → NodeCache.get t k (NodeCache.sweep ts c) = None.
Proof.
  unfold NodeCache.get, NodeCache.sweep. intros Hg.
  destruct (filter _ c !! k) as [e|] eqn:Hf; [|done].
  apply map_lookup_filter_Some in Hf as [Hk _]. by rewrite Hk in Hg.
Qed.

End CacheFacts.


(** ** The cache contract *)

(** C2: after [set(k, v)] an immediate [get(k)] returns [v], and so does
    every [get(k)] before the TTL of 3600 seconds has run out; once it has,
    [get(k)] returns absent, whether the entry is still stored or a sweep
    (at any time [ts]) has gone over the cache. *)
Theorem cache_ttl (c : gmap string NodeCache.Entry) (k v : string) (t0 t ts : N) :
  t0 + 3600 * 1000 <= t →
  let c' := NodeCache.set cache_options t0 k v c in
  NodeCache.get t0 k c' = Some v
  ∧ (∀ t', t' < t0 + 3600 * 1000 → NodeCache.get t' k c' = Some v)
  ∧ NodeCache.get t k c' = None
  ∧ NodeCache.get t k (NodeCache.sweep ts c') = None.
Proof.
  intros Hexp c'.
  assert (Hgone : NodeCache.get t k c' = None).
  { unfold c'. rewrite get_set_eq.
    rewrite bool_decide_eq_false_2; [done|].
    unfold NodeCache.ttl_ms; simpl. lia. }
  split_and!.
  - unfold c'. rewrite get_set_eq.
    rewrite bool_decide_eq_true_2; [done|].
    unfold NodeCache.ttl_ms; simpl. lia.
  - intros t' Ht'. unfold c'. rewrite get_set_eq.
    rewrite bool_decide_eq_true_2; [done|].
    unfold NodeCache.ttl_ms; simpl. lia.
  - exact Hgone.
  - by apply get_sweep_None.
Qed.

Lemma cache_ttl_witness :
  0 + 3600 * 1000 <= 3600000
  ∧ NodeCache.get 0 "prerender:https://example.com"
      (NodeCache.set cache_options 0 "prerender:https://example.com"
         "<html>CACHED</html>" ∅) = Some "<html>CACHED</html>"
  ∧ NodeCache.get 3600000 "prerender:https://example.com"
      (NodeCache.sweep 3599999
         (NodeCache.set cache_options 0 "prerender:https://example.com"
            "<html>CACHED</html>" ∅)) = None.
Proof.
  assert (H : 0 + 3600 * 1000 <= 3600000) by lia.
  split; [exact H|].
  destruct (cache_ttl ∅ "prerender:https://example.com" "<html>CACHED</html>"
              0 3600000 3599999 H) as (Hnow & _ & _ & Hswept).
  split; [exact Hnow | exact Hswept].
Defined.

(** The sweep is only memory reclamation: it never changes what [get]
    shows from the sweep time on. *)
Lemma sweep_invisible (c : gmap string NodeCache.Entry) (k : string) (ts t : N) :
  ts <= t → NodeCache.get t k (NodeCache.sweep ts c) = NodeCache.get t k c.
Proof. apply get_sweep_later. Qed.

(** C8: [POST /clear-cache] with a url in the body performs [del] on that
    url's key, and [del(k)] removes only [k]: [get] of any other key [k2]
    returns what it returned before, and deleting an absent key leaves the
    cache as it was. *)
Theorem delete_removes_only_key (c : gmap string NodeCache.Entry)
    (u k k2 : string) (now t : N) :
  u ≠ "" → k = cacheKey u → k ≠ k2 →
  cache (POST_clear_cache (Some u) now c) = NodeCache.del k c
  ∧ NodeCache.get t k2 (NodeCache.del k c) = NodeCache.get t k2 c
  ∧ NodeCache.get t k (NodeCache.del k c) = None
  ∧ (c !! k = None → NodeCache.del k c = c).
Proof.
  intros Hu -> Hne. split_and!.
  - unfold POST_clear_cache, serve, post_clear_cache. simpl.
    destruct (String.eqb u "") eqn:He.
    + apply String.eqb_eq in He. contradiction.
    + reflexivity.
  - by apply get_del_ne.
  - apply get_del_eq.
  - intros Habs. unfold NodeCache.del. by apply delete_id.
Qed.

Lemma delete_removes_only_key_witness :
  let c := NodeCache.set cache_options 0 (cacheKey "https://a.com") "<html>A</html>"
             (NodeCache.set cache_options 0 (cacheKey "https://b.com") "<html>B</html>" ∅) in
  "https://a.com" ≠ ""
  ∧ cacheKey "https://a.com" ≠ cacheKey "https://b.com"
  ∧ NodeCache.get 5 (cacheKey "https://b.com")
      (cache (POST_clear_cache (Some "https://a.com") 5 c)) = Some "<html>B</html>"
  ∧ NodeCache.get 5 (cacheKey "https://a.com")
      (cache (POST_clear_cache (Some "https://a.com") 5 c)) = None.
Proof.
  intros c.
  assert (Hu : "https://a.com" ≠ "") by discriminate.
  assert (Hne : cacheKey "https://a.com" ≠ cacheKey "https://b.com") by discriminate.
  destruct (delete_removes_only_key c "https://a.com" (cacheKey "https://a.com")
              (cacheKey "https://b.com") 5 5 Hu eq_refl Hne) as (Hc & Hother & Hgone & _).
  split_and!; [exact Hu | exact Hne | | ].
  - rewrite Hc, Hother. unfold c.
    rewrite get_set_ne by exact Hne. rewrite get_set_eq. reflexivity.
  - rewrite Hc. exact Hgone.
Defined.

(** Deleting a key that [get] does not show changes nothing [get] shows. *)
Lemma delete_absent_unobservable (c : gmap string NodeCache.Entry)
    (k k' : string) (t : N) :
  NodeCache.get t k c = None →
  NodeCache.get t k' (NodeCache.del k c) = NodeCache.get t k' c.
Proof.
  intros Habs. destruct (decide (k = k')) as [<-|Hne].
  - by rewrite get_del_eq.
  - by apply get_del_ne.
Qed.

(** C9: [POST /clear-cache] with no url performs [flushAll]; after it
    [get(k)] returns absent for every key [k], and clearing a second time
    leaves the cache as the first clear left it. *)
Theorem clear_idempotent (c : gmap string NodeCache.Entry) (k : string)
    (now now' t : N) :
  let c1 := cache (POST_clear_cache None now c) in
  c1 = NodeCache.flushAll c
  ∧ NodeCache.get t k c1 = None
  ∧ cache (POST_clear_cache None now' c1) = c1
  ∧ NodeCache.flushAll (NodeCache.flushAll c) = NodeCache.flushAll c.
Proof.
  intros c1.
  assert (Hc1 : c1 = NodeCache.flushAll c) by reflexivity.
  split_and!.
  - exact Hc1.
  - rewrite Hc1. apply get_flushAll.
  - reflexivity.
  - reflexivity.
Qed.

(** An empty [url] in the body is falsy: the whole cache is flushed. *)
Lemma clear_cache_empty_url (c : gmap string NodeCache.Entry) (now : N) :
  cache (POST_clear_cache (Some "") now c) = NodeCache.flushAll c.
Proof. reflexivity. Qed.

(** ** The four ways a [GET /render] request runs *)

Ltac unfold_handler :=
  unfold GET_render, serve, get_render, render_attempt, new_URL,
    try_catch_finally, try_catch, await, cache_get, read_cache, cache_set,
    update_cache, console_log, console_error, res_send, emit, tick,
    set_browser, get_browser, throw, return_, mbind, M_bind, mret, M_ret.

(** Case analysis on how each awaited call settles, in program order. *)
Ltac settle :=
  repeat match goal with
         | |- context [settled ?o] => destruct (settled o) eqn:?; simpl
         end.

Section Runs.
Variable url_parses : string → bool.
Implicit Types (P : Puppeteer) (c : gmap string NodeCache.Entry).

Lemma accepted_input q :
  rejected_input url_parses q = false →
  ∃ u, q = Some u ∧ String.eqb u "" = false ∧ url_parses u = true.
Proof.
  destruct q as [u|]; [|discriminate]. simpl. intros H.
  apply orb_false_elim in H as [Hne Hp]. apply negb_false_iff in Hp.
  by exists u.
Qed.

(** Invalid input: a 400 is the only effect. *)
Lemma run_rejected P q now c :
  rejected_input url_parses q = true →
  ∃ m, GET_render url_parses P q now c
       = {| cache := c; clock := now;
            trace := [Send (json_response 400 [("error", m)])];
            browser := None |}.
Proof.
  intros Hrej. destruct q as [u|]; simpl in Hrej.
  - unfold_handler. simpl. destruct (String.eqb u "") eqn:Hu; simpl.
    + by eexists.
    + simpl in Hrej. apply negb_true_iff in Hrej. rewrite Hrej. by eexists.
  - by eexists.
Qed.

(** Cache hit: one lookup, one log line, the cached markup. *)
Lemma run_hit P u now c :
  rejected_input url_parses (Some u) = false →
  truthy (NodeCache.get now (cacheKey u) c) = true →
  GET_render url_parses P (Some u) now c
  = {| cache := c; clock := now;
       trace := [CacheGet (cacheKey u); ConsoleLog ("Cache hit for: " +:+ u);
                 Send (html_response (js_string (NodeCache.get now (cacheKey u) c)))];
       browser := None |}.
Proof.
  intros Hacc Hhit. apply accepted_input in Hacc as (? & [= <-] & Hne & Hp).
  unfold_handler. simpl. rewrite Hne, Hp. simpl. by rewrite Hhit.
Qed.

(** Cache miss, render runs to the end. *)
Lemma run_fresh P u now c html :
  rejected_input url_parses (Some u) = false →
  truthy (NodeCache.get now (cacheKey u) c) = false →
  rendered P u = inr html →
  let s := GET_render url_parses P (Some u) now c in
  trace s = [CacheGet (cacheKey u); ConsoleLog ("Prerendering: " +:+ u)]
            ++ script u
            ++ [CacheSet (cacheKey u) html;
                ConsoleLog ("Successfully prerendered: " +:+ u);
                Send (html_response html); Close]
  ∧ cache s = NodeCache.set cache_options (now + render_time P u)
                (cacheKey u) html c.
Proof.
  intros Hacc Hmiss Hr. apply accepted_input in Hacc as (? & [= <-] & Hne & Hp).
  revert Hr. unfold rendered, render_time, and_then.
  unfold_handler. simpl. rewrite Hne, Hp. simpl. rewrite Hmiss. simpl.
  settle; intros [= ->]; (split; [reflexivity | f_equal; lia]).
Qed.

(** Cache miss, some awaited call is rejected. *)
Lemma run_failed P u now c e :
  rejected_input url_parses (Some u) = false →
  truthy (NodeCache.get now (cacheKey u) c) = false →
  rendered P u = inl e →
  let s := GET_render url_parses P (Some u) now c in
  (∃ n, (1 ≤ n ≤ 7)%nat ∧
     trace s = [CacheGet (cacheKey u); ConsoleLog ("Prerendering: " +:+ u)]
               ++ take n (script u)
               ++ [ConsoleError ("Prerender error: " +:+ message e);
                   Send (render_failed e)]
               ++ release P)
  ∧ cache s = c.
Proof.
  intros Hacc Hmiss Hr. apply accepted_input in Hacc as (? & [= <-] & Hne & Hp).
  revert Hr. unfold rendered, release, and_then.
  unfold_handler. simpl. rewrite Hne, Hp. simpl. rewrite Hmiss. simpl.
  settle; intros [= ->]; (split; [|reflexivity]).
  all: first [ exists 1%nat; split; [lia | reflexivity]
             | exists 2%nat; split; [lia | reflexivity]
             | exists 3%nat; split; [lia | reflexivity]
             | exists 4%nat; split; [lia | reflexivity]
             | exists 5%nat; split; [lia | reflexivity]
             | exists 6%nat; split; [lia | reflexivity]
             | exists 7%nat; split; [lia | reflexivity] ].
Qed.

End Runs.

(** ** Properties of [GET /render] *)

(** Case analysis on how many calls of the script were made. *)
Ltac script_prefix n :=
  destruct n as [|[|[|[|[|[|[|[|?]]]]]]]]; simpl; try lia.

Section Render.
Variable url_parses : string → bool.
Implicit Types (P : Puppeteer) (c : gmap string NodeCache.Entry).

Lemma rejected_input_spec q :
  rejected_input url_parses q = true
  ↔ q = None ∨ ∃ u, q = Some u ∧ (u = "" ∨ url_parses u = false).
Proof.
  destruct q as [u|]; simpl.
  - rewrite orb_true_iff, negb_true_iff, String.eqb_eq. split.
    + intros H. right. by exists u.
    + intros [|(? & [= <-] & H)]; done.
  - split; [by left | done].
Qed.

Lemma rendered_launch P u html :
  rendered P u = inr html → release P = [Close].
Proof.
  unfold rendered, release, and_then.
  by destruct (settled (launch P launch_options)).
Qed.

Lemma rendered_with_close cl P u : rendered (with_close cl P) u = rendered P u.
Proof. reflexivity. Qed.

Lemma release_with_close cl P : release (with_close cl P) = release P.
Proof. reflexivity. Qed.

Lemma truthy_Some v : truthy (Some v) = true ↔ v ≠ "".
Proof.
  simpl. rewrite negb_true_iff. split.
  - intros H ->. by rewrite String.eqb_refl in H.
  - intros H. by apply String.eqb_neq.
Qed.

(** Every request is answered exactly once. *)
Lemma one_response P q now c :
  ∃ r, sends (trace (GET_render url_parses P q now c)) = [r].
Proof.
  destruct (rejected_input url_parses q) eqn:Hq.
  - destruct (run_rejected url_parses P q now c Hq) as [m ->]. by eexists.
  - destruct (accepted_input _ _ Hq) as (u & -> & _ & _).
    destruct (truthy (NodeCache.get now (cacheKey u) c)) eqn:Hc.
    + rewrite (run_hit url_parses P u now c Hq Hc). by eexists.
    + destruct (rendered P u) as [e|html] eqn:Hr.
      * destruct (run_failed url_parses P u now c e Hq Hc Hr) as [(n & Hn & ->) _].
        exists (render_failed e). unfold release.
        destruct (settled (launch P launch_options)); script_prefix n; reflexivity.
      * destruct (run_fresh url_parses P u now c html Hq Hc Hr) as [-> _].
        by eexists.
Qed.

(** C5, amended: when the [url] parameter is missing (or empty) or
    [new URL] throws on it, the response is a 400 carrying an error, and it
    is the only effect: no cache access, no browser call, the cache as it
    was. *)
Theorem invalid_input_rejected P q now c :
  rejected_input url_parses q = true →
  let s := GET_render url_parses P q now c in
  (∃ m, trace s = [Send (json_response 400 [("error", m)])])
  ∧ List.filter cache_access (trace s) = []
  ∧ renderer_calls (trace s) = []
  ∧ cache s = c.
Proof.
  intros Hq s. destruct (run_rejected url_parses P q now c Hq) as [m Hs].
  unfold s. rewrite Hs. simpl. split_and!; try done. by exists m.
Qed.

(** C1, amended: when the url passes validation and the cache shows a
    non-empty value for its key, the response is that value as
    [text/html], after a single cache lookup, with no browser call and
    the cache as it was. *)
Theorem cache_hit_short_circuits P u v now c :
  rejected_input url_parses (Some u) = false →
  NodeCache.get now (cacheKey u) c = Some v →
  v ≠ "" →
  let s := GET_render url_parses P (Some u) now c in
  sends (trace s) = [html_response v]
  ∧ status (html_response v) = 200
  ∧ content_type (html_response v) = "text/html"
  ∧ body (html_response v) = Text v
  ∧ renderer_calls (trace s) = []
  ∧ List.filter cache_access (trace s) = [CacheGet (cacheKey u)]
  ∧ cache s = c.
Proof.
  intros Hq Hget Hv s.
  assert (Hhit : truthy (NodeCache.get now (cacheKey u) c) = true).
  { rewrite Hget. by apply truthy_Some. }
  unfold s. rewrite (run_hit url_parses P u now c Hq Hhit), Hget.
  simpl. done.
Qed.

(** C10: when the cache shows the empty string for the key of a valid
    url, the request is treated as a miss: no cached response is sent and
    the browser is launched, although an unexpired entry exists. *)
Theorem empty_markup_is_a_miss P u now c :
  rejected_input url_parses (Some u) = false →
  NodeCache.get now (cacheKey u) c = Some "" →
  let s := GET_render url_parses P (Some u) now c in
  ∃ rest, trace s = [CacheGet (cacheKey u);
                     ConsoleLog ("Prerendering: " +:+ u);
                     Launch launch_options] ++ rest.
Proof.
  intros Hq Hget s.
  assert (Hmiss : truthy (NodeCache.get now (cacheKey u) c) = false)
    by (by rewrite Hget).
  unfold s. destruct (rendered P u) as [e|html] eqn:Hr.
  - destruct (run_failed url_parses P u now c e Hq Hmiss Hr) as [(n & Hn & ->) _].
    script_prefix n; by eexists.
  - destruct (run_fresh url_parses P u now c html Hq Hmiss Hr) as [-> _].
    by eexists.
Qed.

(** C3: when the render of a valid, uncached url fails with error [e],
    the one response is a 500 whose body carries [e]'s message; each
    browser call was made at most once (the calls are a prefix of the
    script, then the release), so nothing was retried; and the cache was
    neither written nor changed. *)
Theorem render_failure_reports_error P u e now c :
  rejected_input url_parses (Some u) = false →
  truthy (NodeCache.get now (cacheKey u) c) = false →
  rendered P u = inl e →
  let s := GET_render url_parses P (Some u) now c in
  sends (trace s) = [render_failed e]
  ∧ status (render_failed e) = 500
  ∧ body (render_failed e)
    = Json [("error", "Failed to prerender page"); ("message", message e)]
  ∧ (∃ n, renderer_calls (trace s) = take n (script u) ++ release P)
  ∧ length (List.filter is_launch (trace s)) = 1%nat
  ∧ List.filter cache_write (trace s) = []
  ∧ cache s = c.
Proof.
  intros Hq Hmiss Hr s.
  destruct (run_failed url_parses P u now c e Hq Hmiss Hr) as [(n & Hn & Htr) Hc].
  fold s in Htr, Hc. rewrite Htr. split_and!; try done.
  - unfold release. destruct (settled (launch P launch_options));
      script_prefix n; reflexivity.
  - exists n. unfold release. destruct (settled (launch P launch_options));
      script_prefix n; reflexivity.
  - unfold release. destruct (settled (launch P launch_options));
      script_prefix n; reflexivity.
  - unfold release. destruct (settled (launch P launch_options));
      script_prefix n; reflexivity.
Qed.

(** C4, amended: when the render of a valid, uncached url succeeds, the
    markup is written to the cache under the request's key before the
    response is sent; and when the markup is not empty, an identical
    request arriving before the entry expires is answered with the same
    markup without any browser call. *)
Theorem fresh_render_populates_cache P u html now c :
  rejected_input url_parses (Some u) = false →
  truthy (NodeCache.get now (cacheKey u) c) = false →
  rendered P u = inr html →
  let s := GET_render url_parses P (Some u) now c in
  (∃ before, trace s = before ++ [CacheSet (cacheKey u) html;
                                  ConsoleLog ("Successfully prerendered: " +:+ u);
                                  Send (html_response html); Close])
  ∧ sends (trace s) = [html_response html]
  ∧ cache s = NodeCache.set cache_options (now + render_time P u) (cacheKey u) html c
  ∧ (html ≠ "" → ∀ P' t, t < now + render_time P u + 3600 * 1000 →
       let s' := GET_render url_parses P' (Some u) t (cache s) in
       sends (trace s') = [html_response html]
       ∧ renderer_calls (trace s') = []
       ∧ cache s' = cache s).
Proof.
  intros Hq Hmiss Hr s.
  destruct (run_fresh url_parses P u now c html Hq Hmiss Hr) as [Htr Hc].
  fold s in Htr, Hc. split_and!.
  - rewrite Htr. eexists (_ :: _ :: script u). reflexivity.
  - by rewrite Htr.
  - exact Hc.
  - intros Hne P' t Ht s'.
    assert (Hget : NodeCache.get t (cacheKey u) (cache s) = Some html).
    { rewrite Hc, get_set_eq. rewrite bool_decide_eq_true_2; [done|].
      unfold NodeCache.ttl_ms. simpl. lia. }
    assert (Hhit : truthy (NodeCache.get t (cacheKey u) (cache s)) = true).
    { rewrite Hget. by apply truthy_Some. }
    unfold s'. rewrite (run_hit url_parses P' u t (cache s) Hq Hhit), Hget.
    done.
Qed.

(** C6: when the browser was launched and the launch resolved, the run
    ends with [browser.close()], called exactly once, whatever happened
    in between; and whatever the outcome [cl] of that call, the one
    response sent and the cache are those of the run where it resolves. *)
Theorem session_released P q now c cl b :
  In (Launch launch_options) (trace (GET_render url_parses P q now c)) →
  settled (launch P launch_options) = inr b →
  let s := GET_render url_parses P q now c in
  let s' := GET_render url_parses (with_close cl P) q now c in
  last (trace s) = Some Close
  ∧ List.filter is_close (trace s) = [Close]
  ∧ (∃ r, sends (trace s) = [r] ∧ sends (trace s') = [r])
  ∧ cache s' = cache s.
Proof.
  intros Hin Hb s s'. subst s s'. revert Hin.
  destruct (rejected_input url_parses q) eqn:Hq.
  { destruct (run_rejected url_parses P q now c Hq) as [m ->]. simpl.
    intros [|[]]; discriminate. }
  destruct (accepted_input _ _ Hq) as (u & -> & _ & _).
  destruct (truthy (NodeCache.get now (cacheKey u) c)) eqn:Hc.
  { rewrite (run_hit url_parses P u now c Hq Hc). simpl.
    intros [|[|[|[]]]]; discriminate. }
  intros _. destruct (rendered P u) as [e|html] eqn:Hr.
  - destruct (run_failed url_parses P u now c e Hq Hc Hr) as [(n & Hn & Htr) Hca].
    destruct (run_failed url_parses (with_close cl P) u now c e Hq Hc Hr)
      as [(n' & Hn' & Htr') Hca'].
    rewrite Htr, Htr', Hca, Hca'. rewrite release_with_close.
    unfold release. rewrite Hb.
    split_and!; try done.
    + script_prefix n; reflexivity.
    + script_prefix n; reflexivity.
    + exists (render_failed e).
      split; [script_prefix n | script_prefix n']; reflexivity.
  - destruct (run_fresh url_parses P u now c html Hq Hc Hr) as [Htr Hca].
    destruct (run_fresh url_parses (with_close cl P) u now c html Hq Hc Hr)
      as [Htr' Hca'].
    rewrite Htr, Htr', Hca, Hca'. split_and!; try done. by eexists.
Qed.

(** What [browser.close()] does to the handler's promise when it is
    rejected in the [finally] block: the promise is rejected with the
    release error, after the response was sent. *)
Lemma release_failure_rejects_promise P u now c e d :
  rejected_input url_parses (Some u) = false →
  truthy (NodeCache.get now (cacheKey u) c) = false →
  release P = [Close] →
  close P = {| took := d; settled := inl e |} →
  (serve (get_render url_parses P (Some u)) now c).1 = Throw e.
Proof.
  intros Hq Hmiss Hrel Hcl.
  apply accepted_input in Hq as (? & [= <-] & Hne & Hp).
  revert Hrel. unfold release.
  unfold_handler. simpl. rewrite Hne, Hp. simpl. rewrite Hmiss. simpl.
  rewrite Hcl. settle; done.
Qed.

(** C7: the browser calls of every run are a prefix of the fixed script
    (launch, new page, user agent, viewport, navigation, settle delay,
    serialisation) followed by the release; every call carries the fixed
    configuration: navigation until [networkidle0] with a timeout of 30
    seconds, a settle delay of 2 seconds that is only reached when the
    navigation resolved, a 1200x800 viewport, and a user agent naming
    [PrerenderBot/1.0]. *)
Theorem renderer_configuration P q now c :
  let s := GET_render url_parses P q now c in
  (∃ n, renderer_calls (trace s)
        = take n (script (js_string q)) ++ (if n is O then [] else release P))
  ∧ Forall configured (trace s)
  ∧ (In (WaitForTimeout settle_delay) (trace s) →
     ∃ x, settled (goto P (js_string q) goto_options) = inr x)
  ∧ goto_options = {| waitUntil := "networkidle0"; timeout := 30 * 1000 |}
  ∧ settle_delay = 2 * 1000
  ∧ viewport = {| width := 1200; height := 800 |}
  ∧ user_agent = "Mozilla/5.0 (compatible; " +:+ "PrerenderBot/1.0" +:+ ")".
Proof.
  intros s. split_and!; try reflexivity.
  - subst s. destruct (rejected_input url_parses q) eqn:Hq.
    { destruct (run_rejected url_parses P q now c Hq) as [m ->]. by exists 0%nat. }
    destruct (accepted_input _ _ Hq) as (u & -> & _ & _).
    destruct (truthy (NodeCache.get now (cacheKey u) c)) eqn:Hc.
    { rewrite (run_hit url_parses P u now c Hq Hc). by exists 0%nat. }
    destruct (rendered P u) as [e|html] eqn:Hr.
    + destruct (run_failed url_parses P u now c e Hq Hc Hr) as [(n & Hn & ->) _].
      exists n. unfold release. destruct (settled (launch P launch_options));
        script_prefix n; reflexivity.
    + destruct (run_fresh url_parses P u now c html Hq Hc Hr) as [-> _].
      exists 7%nat. rewrite (rendered_launch _ _ _ Hr). reflexivity.
  - subst s. destruct (rejected_input url_parses q) eqn:Hq.
    { destruct (run_rejected url_parses P q now c Hq) as [m ->].
      repeat constructor. }
    destruct (accepted_input _ _ Hq) as (u & -> & _ & _).
    destruct (truthy (NodeCache.get now (cacheKey u) c)) eqn:Hc.
    { rewrite (run_hit url_parses P u now c Hq Hc). repeat constructor. }
    destruct (rendered P u) as [e|html] eqn:Hr.
    + destruct (run_failed url_parses P u now c e Hq Hc Hr) as [(n & Hn & ->) _].
      unfold release. destruct (settled (launch P launch_options));
        script_prefix n; repeat constructor.
    + destruct (run_fresh url_parses P u now c html Hq Hc Hr) as [-> _].
      repeat constructor.
  - subst s. destruct q as [u|]; [|simpl; intros [|[]]; discriminate].
    unfold_handler. simpl.
    destruct (String.eqb u ""); simpl; [intros [|[]]; discriminate|].
    destruct (url_parses u); simpl; [|intros [|[]]; discriminate].
    destruct (truthy (NodeCache.get now (cacheKey u) c)); simpl;
      [intuition discriminate|].
    settle; first [ by eexists | intuition discriminate ].
Qed.

End Render.

(** ** Concrete runs *)

Lemma invalid_input_rejected_witness :
  let s := GET_render absolute_url (renders "<html>FRESH</html>")
             (Some "not-a-url") 0 ∅ in
  rejected_input absolute_url (Some "not-a-url") = true
  ∧ (∃ m, trace s = [Send (json_response 400 [("error", m)])])
  ∧ List.filter cache_access (trace s) = []
  ∧ renderer_calls (trace s) = []
  ∧ cache s = ∅.
Proof.
  intros s.
  assert (H : rejected_input absolute_url (Some "not-a-url") = true) by reflexivity.
  split; [exact H|].
  exact (invalid_input_rejected absolute_url (renders "<html>FRESH</html>")
           (Some "not-a-url") 0 ∅ H).
Defined.

(** C5 as stated fails on a url that parses without a host: the handler
    asks [new URL] only whether it throws, and makes no host check of its
    own.  [file:///etc/passwd] and [mailto:someone@example.com] have no
    host, yet they are accepted, looked up in the cache and rendered; and
    whatever the parser, once it accepts the url the first effect is the
    cache lookup. *)
Lemma invalid_input_counterexample :
  let u := "file:///etc/passwd" in
  let m := "mailto:someone@example.com" in
  let P := renders "<html>FRESH</html>" in
  let s := GET_render has_scheme P (Some u) 0 ∅ in
  (absolute_url u = false
   ∧ rejected_input has_scheme (Some u) = false
   ∧ List.filter cache_access (trace s)
     = [CacheGet (cacheKey u); CacheSet (cacheKey u) "<html>FRESH</html>"]
   ∧ renderer_calls (trace s) = script u ++ [Close]
   ∧ sends (trace s) = [html_response "<html>FRESH</html>"])
  ∧ (absolute_url m = false
     ∧ rejected_input has_scheme (Some m) = false
     ∧ renderer_calls (trace (GET_render has_scheme P (Some m) 0 ∅))
       = script m ++ [Close])
  ∧ (∀ (parses : string → bool) (P' : Puppeteer) now c,
       parses u = true →
       ∃ rest, trace (GET_render parses P' (Some u) now c)
               = CacheGet (cacheKey u) :: rest).
Proof.
  intros u m P s. split_and!; try (vm_compute; reflexivity).
  intros parses P' now c Hp. subst u.
  unfold_handler. simpl. rewrite Hp. simpl.
  destruct (truthy (NodeCache.get now (cacheKey "file:///etc/passwd") c)); simpl.
  - by eexists.
  - settle; by eexists.
Qed.

Lemma cache_hit_short_circuits_witness :
  let s := GET_render absolute_url (renders "<html>FRESH</html>")
             (Some "https://example.com") 1 example_cache in
  rejected_input absolute_url (Some "https://example.com") = false
  ∧ NodeCache.get 1 (cacheKey "https://example.com") example_cache
    = Some "<html>CACHED</html>"
  ∧ sends (trace s) = [html_response "<html>CACHED</html>"]
  ∧ renderer_calls (trace s) = [].
Proof.
  intros s.
  assert (H1 : rejected_input absolute_url (Some "https://example.com") = false)
    by reflexivity.
  assert (H2 : NodeCache.get 1 (cacheKey "https://example.com") example_cache
               = Some "<html>CACHED</html>") by reflexivity.
  assert (H3 : "<html>CACHED</html>" ≠ "") by discriminate.
  destruct (cache_hit_short_circuits absolute_url (renders "<html>FRESH</html>")
              "https://example.com" "<html>CACHED</html>" 1 example_cache H1 H2 H3)
    as (Hs & _ & _ & _ & Hr & _).
  split_and!; [exact H1 | exact H2 | exact Hs | exact Hr].
Defined.

(** C1 as stated fails on a cached empty string, which the handler takes
    for a miss: the browser runs and its markup is sent. It also fails on a
    url that does not parse whose key was put in the cache: the answer is
    the 400. *)
Lemma cache_hit_counterexample :
  let c := NodeCache.set cache_options 0 (cacheKey "https://example.com") "" ∅ in
  let s := GET_render absolute_url (renders "<html>FRESH</html>")
             (Some "https://example.com") 1 c in
  let c' := NodeCache.set cache_options 0 (cacheKey "not-a-url")
              "<html>CACHED</html>" ∅ in
  let s' := GET_render absolute_url (renders "<html>FRESH</html>")
              (Some "not-a-url") 1 c' in
  (NodeCache.get 1 (cacheKey "https://example.com") c = Some ""
   ∧ sends (trace s) = [html_response "<html>FRESH</html>"]
   ∧ renderer_calls (trace s) = script "https://example.com" ++ [Close])
  ∧ (NodeCache.get 1 (cacheKey "not-a-url") c' = Some "<html>CACHED</html>"
     ∧ sends (trace s') = [json_response 400 [("error", "Invalid URL provided")]]).
Proof. vm_compute. split_and!; reflexivity. Qed.

Lemma empty_markup_is_a_miss_witness :
  let c := NodeCache.set cache_options 0 (cacheKey "https://example.com") "" ∅ in
  let s := GET_render absolute_url (renders "<html>FRESH</html>")
             (Some "https://example.com") 1 c in
  rejected_input absolute_url (Some "https://example.com") = false
  ∧ NodeCache.get 1 (cacheKey "https://example.com") c = Some ""
  ∧ ∃ rest, trace s = [CacheGet (cacheKey "https://example.com");
                       ConsoleLog ("Prerendering: " +:+ "https://example.com");
                       Launch launch_options] ++ rest.
Proof.
  intros c s.
  assert (H1 : rejected_input absolute_url (Some "https://example.com") = false)
    by reflexivity.
  assert (H2 : NodeCache.get 1 (cacheKey "https://example.com") c = Some "")
    by reflexivity.
  split_and!; [exact H1 | exact H2 |].
  exact (empty_markup_is_a_miss absolute_url (renders "<html>FRESH</html>")
           "https://example.com" 1 c H1 H2).
Defined.

Lemma render_failure_reports_error_witness :
  let s := GET_render absolute_url (navigation_fails "timeout")
             (Some "https://example.com") 0 ∅ in
  rejected_input absolute_url (Some "https://example.com") = false
  ∧ truthy (NodeCache.get 0 (cacheKey "https://example.com") ∅) = false
  ∧ rendered (navigation_fails "timeout") "https://example.com"
    = inl {| message := "timeout" |}
  ∧ sends (trace s)
    = [json_response 500 [("error", "Failed to prerender page");
                          ("message", "timeout")]]
  ∧ cache s = ∅.
Proof.
  intros s.
  assert (H1 : rejected_input absolute_url (Some "https://example.com") = false)
    by reflexivity.
  assert (H2 : truthy (NodeCache.get 0 (cacheKey "https://example.com") ∅) = false)
    by reflexivity.
  assert (H3 : rendered (navigation_fails "timeout") "https://example.com"
               = inl {| message := "timeout" |}) by reflexivity.
  destruct (render_failure_reports_error absolute_url (navigation_fails "timeout")
              "https://example.com" {| message := "timeout" |} 0 ∅ H1 H2 H3)
    as (Hs & _ & _ & _ & _ & _ & Hc).
  split_and!; [exact H1 | exact H2 | exact H3 | exact Hs | exact Hc].
Defined.

Lemma fresh_render_populates_cache_witness :
  let P := renders "<html>FRESH</html>" in
  let s := GET_render absolute_url P (Some "https://x.com") 0 ∅ in
  let s' := GET_render absolute_url P (Some "https://x.com") (clock s) (cache s) in
  rejected_input absolute_url (Some "https://x.com") = false
  ∧ truthy (NodeCache.get 0 (cacheKey "https://x.com") ∅) = false
  ∧ rendered P "https://x.com" = inr "<html>FRESH</html>"
  ∧ sends (trace s) = [html_response "<html>FRESH</html>"]
  ∧ sends (trace s') = [html_response "<html>FRESH</html>"]
  ∧ renderer_calls (trace s') = [].
Proof.
  intros P s s'.
  assert (H1 : rejected_input absolute_url (Some "https://x.com") = false)
    by reflexivity.
  assert (H2 : truthy (NodeCache.get 0 (cacheKey "https://x.com") ∅) = false)
    by reflexivity.
  assert (H3 : rendered P "https://x.com" = inr "<html>FRESH</html>")
    by reflexivity.
  assert (H4 : "<html>FRESH</html>" ≠ "") by discriminate.
  assert (H5 : clock s < 0 + render_time P "https://x.com" + 3600 * 1000)
    by (vm_compute; reflexivity).
  destruct (fresh_render_populates_cache absolute_url P "https://x.com"
              "<html>FRESH</html>" 0 ∅ H1 H2 H3) as (_ & Hs & _ & Hnext).
  destruct (Hnext H4 P (clock s) H5) as (Hs' & Hr' & _).
  split_and!; [exact H1 | exact H2 | exact H3 | exact Hs | exact Hs' | exact Hr'].
Defined.

(** C4 as stated fails when the page serialises to the empty string: the
    render succeeds and is cached, and the identical request that follows
    launches the browser again.  It also fails for a request that follows
    once the TTL has run out. *)
Lemma fresh_render_counterexample :
  let P := renders "" in
  let s := GET_render absolute_url P (Some "https://x.com") 0 ∅ in
  let s' := GET_render absolute_url P (Some "https://x.com") (clock s) (cache s) in
  let Q := renders "<html>FRESH</html>" in
  let r := GET_render absolute_url Q (Some "https://x.com") 0 ∅ in
  let r' := GET_render absolute_url Q (Some "https://x.com")
              (render_time Q "https://x.com" + 3600 * 1000) (cache r) in
  (rendered P "https://x.com" = inr ""
   ∧ sends (trace s) = [html_response ""]
   ∧ NodeCache.get (clock s) (cacheKey "https://x.com") (cache s) = Some ""
   ∧ renderer_calls (trace s') = script "https://x.com" ++ [Close])
  ∧ (rendered Q "https://x.com" = inr "<html>FRESH</html>"
     ∧ sends (trace r) = [html_response "<html>FRESH</html>"]
     ∧ renderer_calls (trace r') = script "https://x.com" ++ [Close]).
Proof. vm_compute. split_and!; reflexivity. Qed.

Lemma session_released_witness :
  let P := navigation_fails "timeout" in
  let cl : Awaited unit := rejected 7 "Protocol error: Target closed" in
  let s := GET_render absolute_url (with_close cl P) (Some "https://example.com") 0 ∅ in
  In (Launch launch_options) (trace (GET_render absolute_url P (Some "https://example.com") 0 ∅))
  ∧ settled (launch P launch_options) = inr Chromium
  ∧ last (trace (GET_render absolute_url P (Some "https://example.com") 0 ∅)) = Some Close
  ∧ ∃ r, sends (trace (GET_render absolute_url P (Some "https://example.com") 0 ∅)) = [r]
         ∧ sends (trace s) = [r].
Proof.
  intros P cl s.
  assert (H1 : In (Launch launch_options)
                 (trace (GET_render absolute_url P (Some "https://example.com") 0 ∅))).
  { vm_compute. right. right. left. reflexivity. }
  assert (H2 : settled (launch P launch_options) = inr Chromium) by reflexivity.
  destruct (session_released absolute_url P (Some "https://example.com") 0 ∅ cl
              Chromium H1 H2) as (Hlast & _ & Hr & _).
  split_and!; [exact H1 | exact H2 | exact Hlast | exact Hr].
Defined.

Lemma renderer_configuration_witness :
  let s := GET_render absolute_url (renders "<html>FRESH</html>")
             (Some "https://x.com") 0 ∅ in
  In (WaitForTimeout settle_delay) (trace s)
  ∧ (∃ x, settled (goto (renders "<html>FRESH</html>") "https://x.com" goto_options)
          = inr x)
  ∧ Forall configured (trace s).
Proof.
  intros s.
  assert (H : In (WaitForTimeout settle_delay) (trace s)).
  { vm_compute. do 7 right. left. reflexivity. }
  destruct (renderer_configuration absolute_url (renders "<html>FRESH</html>")
              (Some "https://x.com") 0 ∅) as (_ & Hall & Hwait & _).
  split_and!; [exact H | exact (Hwait H) | exact Hall].
Defined.

(** ** Further properties of the handlers *)

(** Both directions of an equivalence between a status and a path, once
    the path is known. *)
Ltac status_iff :=
  split; intros;
  repeat match goal with
         | H : _ ∧ _ |- _ => destruct H
         | H : _ ∨ _ |- _ => destruct H
         | H : ∃ _, _ |- _ => destruct H
         | H : ¬ _ |- _ => by destruct H
         end;
  first [ discriminate | done | by eauto
        | by (split; [|left]) | by (split; [|right; eauto]) ].

Section Handlers.
Variable url_parses : string → bool.
Implicit Types (P : Puppeteer) (c : gmap string NodeCache.Entry).

Lemma key_of_url_injective (u v : string) : cacheKey u = cacheKey v → u = v.
Proof. unfold cacheKey. apply (inj (String.app "prerender:")). Qed.

(** The run of [GET /render] is a function of what the cache shows for
    the url's key at the arrival time. *)
Lemma run_depends_on_lookup P q now c1 c2 :
  NodeCache.get now (cacheKey (js_string q)) c1
  = NodeCache.get now (cacheKey (js_string q)) c2 →
  trace (GET_render url_parses P q now c1) = trace (GET_render url_parses P q now c2)
  ∧ clock (GET_render url_parses P q now c1) = clock (GET_render url_parses P q now c2)
  ∧ promise (serve (get_render url_parses P q) now c1)
    = promise (serve (get_render url_parses P q) now c2).
Proof.
  intros Hget. destruct q as [u|]; [|done]. simpl in Hget.
  unfold promise. unfold_handler. simpl.
  destruct (String.eqb u ""); simpl; [done|].
  destruct (url_parses u); simpl; [|done].
  rewrite Hget.
  destruct (truthy (NodeCache.get now (cacheKey u) c2)); simpl; [done|].
  settle; done.
Qed.

(** On a miss of a valid url the browser is launched. *)
Lemma launch_on_miss P u now c :
  rejected_input url_parses (Some u) = false →
  truthy (NodeCache.get now (cacheKey u) c) = false →
  In (Launch launch_options) (trace (GET_render url_parses P (Some u) now c))
  ∧ length (List.filter is_launch (trace (GET_render url_parses P (Some u) now c)))
    = 1%nat.
Proof.
  intros Hq Hc. destruct (rendered P u) as [e|html] eqn:Hr.
  - destruct (run_failed url_parses P u now c e Hq Hc Hr) as [(n & Hn & ->) _].
    unfold release. destruct (settled (launch P launch_options));
      script_prefix n; (split; [simpl; tauto | reflexivity]).
  - destruct (run_fresh url_parses P u now c html Hq Hc Hr) as [-> _].
    split; [simpl; tauto | reflexivity].
Qed.

(** What a [GET /render] request leaves in the cache. *)
Lemma cache_after_render P q now c :
  cache (GET_render url_parses P q now c) = c
  ∨ ∃ html, rejected_input url_parses q = false
      ∧ cache (GET_render url_parses P q now c)
        = NodeCache.set cache_options (now + render_time P (js_string q))
            (cacheKey (js_string q)) html c.
Proof.
  destruct (rejected_input url_parses q) eqn:Hq.
  { destruct (run_rejected url_parses P q now c Hq) as [m ->]. by left. }
  destruct (accepted_input _ _ Hq) as (u & -> & _ & _).
  destruct (truthy (NodeCache.get now (cacheKey u) c)) eqn:Hc.
  { rewrite (run_hit url_parses P u now c Hq Hc). by left. }
  destruct (rendered P u) as [e|html] eqn:Hr.
  - left. by destruct (run_failed url_parses P u now c e Hq Hc Hr) as [_ ->].
  - right. exists html. split; [done|].
    by destruct (run_fresh url_parses P u now c html Hq Hc Hr) as [_ ->].
Qed.

(** X1: every [GET /render] run sends exactly one response, nothing is
    sent before it, and the only effect that can follow it is the release
    of the browser. *)
Theorem response_then_release P q now c :
  ∃ pre r post,
    trace (GET_render url_parses P q now c) = pre ++ Send r :: post
    ∧ sends pre = []
    ∧ (post = [] ∨ post = [Close]).
Proof.
  destruct (rejected_input url_parses q) eqn:Hq.
  { destruct (run_rejected url_parses P q now c Hq) as [m ->].
    exists [], (json_response 400 [("error", m)]), []. split_and!; [done..|by left]. }
  destruct (accepted_input _ _ Hq) as (u & -> & _ & _).
  destruct (truthy (NodeCache.get now (cacheKey u) c)) eqn:Hc.
  { rewrite (run_hit url_parses P u now c Hq Hc).
    eexists [_; _], _, []. split_and!; [done..|by left]. }
  destruct (rendered P u) as [e|html] eqn:Hr.
  - destruct (run_failed url_parses P u now c e Hq Hc Hr) as [(n & Hn & ->) _].
    exists ([CacheGet (cacheKey u); ConsoleLog ("Prerendering: " +:+ u)]
            ++ take n (script u)
            ++ [ConsoleError ("Prerender error: " +:+ message e)]),
      (render_failed e), (release P).
    split_and!.
    + by rewrite <- !app_assoc.
    + script_prefix n; reflexivity.
    + unfold release. destruct (settled (launch P launch_options)); [by left | by right].
  - destruct (run_fresh url_parses P u now c html Hq Hc Hr) as [-> _].
    exists ([CacheGet (cacheKey u); ConsoleLog ("Prerendering: " +:+ u)]
            ++ script u
            ++ [CacheSet (cacheKey u) html;
                ConsoleLog ("Successfully prerendered: " +:+ u)]),
      (html_response html), [Close].
    split_and!; [done..|by right].
Qed.

(** X2: the status of the response tells the path taken: 400 exactly for
    a missing, empty or unparseable url; 500 exactly for a valid url on a
    cache miss whose render failed; 200 exactly for a valid url served from
    the cache or from a render that ran to the end. *)
Theorem status_classification P q now c :
  let u := js_string q in
  let miss := truthy (NodeCache.get now (cacheKey u) c) = false in
  ∃ r, sends (trace (GET_render url_parses P q now c)) = [r]
    ∧ (status r = 400 ↔ rejected_input url_parses q = true)
    ∧ (status r = 500 ↔ rejected_input url_parses q = false ∧ miss
                        ∧ ∃ e, rendered P u = inl e)
    ∧ (status r = 200 ↔ rejected_input url_parses q = false
                        ∧ (¬ miss ∨ ∃ html, rendered P u = inr html)).
Proof.
  intros u miss. subst u miss.
  destruct (rejected_input url_parses q) eqn:Hq.
  { destruct (run_rejected url_parses P q now c Hq) as [m ->].
    eexists. split; [reflexivity|]. simpl. split_and!; status_iff. }
  destruct (accepted_input _ _ Hq) as (u & -> & _ & _). simpl.
  destruct (truthy (NodeCache.get now (cacheKey u) c)) eqn:Hc.
  { rewrite (run_hit url_parses P u now c Hq Hc).
    eexists. split; [reflexivity|]. simpl. split_and!; status_iff. }
  destruct (rendered P u) as [e|html] eqn:Hr.
  - destruct (run_failed url_parses P u now c e Hq Hc Hr) as [(n & Hn & ->) _].
    exists (render_failed e). split.
    + unfold release. destruct (settled (launch P launch_options));
        script_prefix n; reflexivity.
    + simpl. split_and!; status_iff.
  - destruct (run_fresh url_parses P u now c html Hq Hc Hr) as [-> _].
    eexists. split; [reflexivity|]. simpl. split_and!; status_iff.
Qed.

(** X3: the browser is launched exactly when the url passes validation
    and the cache lookup is a miss, and never more than once per request. *)
Theorem launch_iff_miss P q now c :
  let s := GET_render url_parses P q now c in
  (In (Launch launch_options) (trace s)
   ↔ rejected_input url_parses q = false
     ∧ truthy (NodeCache.get now (cacheKey (js_string q)) c) = false)
  ∧ (length (List.filter is_launch (trace s)) ≤ 1)%nat.
Proof.
  intros s. subst s.
  destruct (rejected_input url_parses q) eqn:Hq.
  { destruct (run_rejected url_parses P q now c Hq) as [m ->]. simpl.
    split; [|lia]. split; [intros [|[]]; discriminate | by intros [? _]]. }
  destruct (accepted_input _ _ Hq) as (u & -> & _ & _). simpl.
  destruct (truthy (NodeCache.get now (cacheKey u) c)) eqn:Hc.
  { rewrite (run_hit url_parses P u now c Hq Hc). simpl.
    split; [|lia]. split; [intros [|[|[|[]]]]; discriminate | by intros [_ ?]]. }
  destruct (launch_on_miss P u now c Hq Hc) as [Hin Hlen].
  split; [done | lia].
Qed.

(** X4: the handler's promise is rejected exactly when [browser.close()]
    is rejected in the [finally] block of a render (valid url, cache miss,
    resolved launch), and then with the error of the release; every other
    request, failed renders included, fulfils it. *)
Theorem promise_rejects_iff_release_fails P q now c e :
  promise (serve (get_render url_parses P q) now c) = Some e
  ↔ rejected_input url_parses q = false
    ∧ truthy (NodeCache.get now (cacheKey (js_string q)) c) = false
    ∧ release P = [Close]
    ∧ settled (close P) = inl e.
Proof.
  destruct q as [u|]; [|simpl; split; [done | by intros [? _]]].
  unfold promise, release, rejected_input. unfold_handler. simpl.
  destruct (String.eqb u ""); simpl; [split; [done | by intros [? _]]|].
  destruct (url_parses u); simpl; [|split; [done | by intros [? _]]].
  destruct (truthy (NodeCache.get now (cacheKey u) c)); simpl;
    [split; [done | by intros (_ & ? & _)]|].
  settle; split; try done; try (by intros (_ & _ & ? & _));
    try (by intros (_ & _ & _ & ?)); try (by intros [= ->]);
    try (by intros (_ & _ & _ & [= ->])).
Qed.

(** X5: two urls have the same cache key only when they are the same url. *)
Theorem cacheKey_inj (u v : string) : cacheKey u = cacheKey v ↔ u = v.
Proof. split; [apply key_of_url_injective | by intros ->]. Qed.

(** X6: a [GET /render] request leaves the stored entry of every other
    key as it was, so what the cache shows for another url is unchanged. *)
Theorem render_frame P q now c (u' : string) (t : N) :
  u' ≠ js_string q →
  let s := GET_render url_parses P q now c in
  cache s !! cacheKey u' = c !! cacheKey u'
  ∧ NodeCache.get t (cacheKey u') (cache s) = NodeCache.get t (cacheKey u') c.
Proof.
  intros Hne s. subst s.
  destruct (cache_after_render P q now c) as [->|(html & _ & ->)]; [done|].
  assert (Hk : cacheKey (js_string q) ≠ cacheKey u').
  { intros H%key_of_url_injective. by apply Hne. }
  split.
  - unfold NodeCache.set. by rewrite lookup_insert_ne.
  - by apply get_set_ne.
Qed.

(** X7: a [GET /render] request reads the cache through the one key of
    its url: two caches that show the same for that key at the arrival
    time give the same run (same effects, same clock, same settling of the
    promise). *)
Theorem render_reads_one_key P q now c1 c2 :
  NodeCache.get now (cacheKey (js_string q)) c1
  = NodeCache.get now (cacheKey (js_string q)) c2 →
  trace (GET_render url_parses P q now c1) = trace (GET_render url_parses P q now c2)
  ∧ clock (GET_render url_parses P q now c1) = clock (GET_render url_parses P q now c2)
  ∧ promise (serve (get_render url_parses P q) now c1)
    = promise (serve (get_render url_parses P q) now c2).
Proof. apply run_depends_on_lookup. Qed.

(** X8: clearing makes the next request render: after [POST /clear-cache]
    with the url [u], and after [POST /clear-cache] with no (or an empty)
    url, a [GET /render] of a valid [u] launches the browser, whatever was
    cached before. *)
Theorem clear_then_render_misses P u b now now' c :
  rejected_input url_parses (Some u) = false →
  truthy b = false →
  In (Launch launch_options)
     (trace (GET_render url_parses P (Some u) now'
               (cache (POST_clear_cache (Some u) now c))))
  ∧ In (Launch launch_options)
       (trace (GET_render url_parses P (Some u) now'
                 (cache (POST_clear_cache b now c)))).
Proof.
  intros Hq Hb. destruct (accepted_input _ _ Hq) as (? & [= <-] & Hne & _).
  split; apply launch_on_miss; try done.
  - unfold POST_clear_cache, serve, post_clear_cache. simpl. rewrite Hne. simpl.
    by rewrite get_del_eq.
  - unfold POST_clear_cache, serve, post_clear_cache. rewrite Hb. simpl.
    by rewrite get_flushAll.
Qed.

(** X9: [POST /clear-cache] with a url [a] is invisible to requests for
    any other url [b]: their run is the one they would have had. *)
Theorem clear_other_url_invisible P a b now now' c :
  a ≠ "" → a ≠ b →
  let c' := cache (POST_clear_cache (Some a) now c) in
  trace (GET_render url_parses P (Some b) now' c')
  = trace (GET_render url_parses P (Some b) now' c)
  ∧ NodeCache.get now' (cacheKey b) c' = NodeCache.get now' (cacheKey b) c.
Proof.
  intros Ha Hab c'.
  assert (Hget : NodeCache.get now' (cacheKey b) c' = NodeCache.get now' (cacheKey b) c).
  { unfold c', POST_clear_cache, serve, post_clear_cache. simpl.
    apply String.eqb_neq in Ha. rewrite Ha. simpl.
    apply get_del_ne. intros H%key_of_url_injective. by apply Hab. }
  split; [|exact Hget].
  by destruct (run_depends_on_lookup P (Some b) now' c' c Hget) as [-> _].
Qed.

End Handlers.

(** ** Sequences of requests *)

Section Sequences.
Variable url_parses : string → bool.
Implicit Types (P : Puppeteer) (c : gmap string NodeCache.Entry).

Lemma cache_after_clear b now c :
  cache (serve (post_clear_cache b) now c).2
  = if truthy b then NodeCache.del (cacheKey (js_string b)) c
    else NodeCache.flushAll c.
Proof. unfold serve, post_clear_cache. by destruct (truthy b). Qed.

Lemma handle_keeps_keys r now c :
  keys_accepted url_parses c →
  keys_accepted url_parses (cache (serve (handle url_parses r) now c).2).
Proof.
  intros Hc. destruct r as [P q|b]; simpl.
  - fold (GET_render url_parses P q now c).
    destruct (cache_after_render url_parses P q now c) as [->|(html & Hq & ->)];
      [done|].
    destruct (accepted_input _ _ Hq) as (u & -> & _ & _). simpl.
    intros k e. unfold NodeCache.set.
    destruct (decide (cacheKey u = k)) as [<-|Hne].
    + intros _. by exists u.
    + rewrite lookup_insert_ne by done. apply Hc.
  - rewrite cache_after_clear. destruct (truthy b).
    + intros k e. unfold NodeCache.del. intros H%lookup_delete_Some.
      apply (Hc k e), H.
    + intros k e. unfold NodeCache.flushAll. by rewrite lookup_empty.
Qed.

(** X10: however many requests are served one after another, and whatever
    the browser does, the cache only ever stores keys of urls that passed
    validation: an invariant of both handlers. *)
Theorem serve_all_keys_accepted (rs : list (N * Request)) c :
  keys_accepted url_parses c →
  keys_accepted url_parses (serve_all url_parses rs c).2.
Proof.
  revert c. induction rs as [|[now r] rs IH]; intros c Hc; [done|].
  simpl.
  specialize (IH _ (handle_keeps_keys r now c Hc)).
  by destruct (serve_all url_parses rs _).
Qed.

(** Requests for a url whose non-empty markup the cache shows until [T],
    all arriving before [T]: each is answered from the cache. *)
Lemma serve_all_hits u html T (rs : list (N * Request)) c :
  rejected_input url_parses (Some u) = false →
  html ≠ "" →
  (∀ t, t < T → NodeCache.get t (cacheKey u) c = Some html) →
  Forall (λ x, x.1 < T ∧ ∃ P, x.2 = Render P (Some u)) rs →
  List.filter is_launch (serve_all url_parses rs c).1 = []
  ∧ sends (serve_all url_parses rs c).1 = replicate (length rs) (html_response html)
  ∧ (serve_all url_parses rs c).2 = c.
Proof.
  intros Hq Hne Hshow Hrs. induction Hrs as [|[now r] rs [Hnow [P HP]] _ IH];
    [done|].
  simpl in Hnow, HP. subst r. simpl.
  fold (GET_render url_parses P (Some u) now c).
  assert (Hhit : truthy (NodeCache.get now (cacheKey u) c) = true).
  { rewrite (Hshow _ Hnow). by apply truthy_Some. }
  rewrite (run_hit url_parses P u now c Hq Hhit), (Hshow _ Hnow). simpl.
  destruct (serve_all url_parses rs c) as [tr c']. simpl in *.
  destruct IH as (-> & -> & ->). done.
Qed.

(** X11: one render serves a whole TTL window: after a render of a valid
    url that ran to the end with non-empty markup, any number of requests
    for that url arriving before the entry expires are all answered with
    that markup, and over the whole sequence the browser is launched once. *)
Theorem hits_cost_one_render P u html now c (rs : list (N * Request)) :
  rejected_input url_parses (Some u) = false →
  truthy (NodeCache.get now (cacheKey u) c) = false →
  rendered P u = inr html →
  html ≠ "" →
  Forall (λ x, x.1 < now + render_time P u + 3600 * 1000
               ∧ ∃ P', x.2 = Render P' (Some u)) rs →
  let tr := (serve_all url_parses ((now, Render P (Some u)) :: rs) c).1 in
  length (List.filter is_launch tr) = 1%nat
  ∧ sends tr = replicate (S (length rs)) (html_response html).
Proof.
  intros Hq Hmiss Hr Hne Hrs tr. subst tr. simpl.
  fold (GET_render url_parses P (Some u) now c).
  destruct (run_fresh url_parses P u now c html Hq Hmiss Hr) as [Htr Hc].
  assert (Hshow : ∀ t, t < now + render_time P u + 3600 * 1000 →
            NodeCache.get t (cacheKey u)
              (cache (GET_render url_parses P (Some u) now c)) = Some html).
  { intros t Ht. rewrite Hc, get_set_eq.
    rewrite bool_decide_eq_true_2; [done|]. unfold NodeCache.ttl_ms. simpl. lia. }
  destruct (serve_all_hits u html _ rs _ Hq Hne Hshow Hrs) as (Hl & Hs & _).
  destruct (serve_all url_parses rs _) as [tr' c']. simpl in *.
  rewrite Htr. unfold sends in *.
  rewrite List.filter_app, omap_app, Hl, Hs. done.
Qed.

End Sequences.

(** ** Edge cases and what the handlers never do *)

Section Edges.
Variable url_parses : string → bool.
Implicit Types (P : Puppeteer) (c : gmap string NodeCache.Entry).

(** X12: a cache hit does not extend the life of an entry: after a render
    that ran to the end and any number of hits on it, a request arriving
    3600 seconds or more after the markup was cached renders again. *)
Theorem hits_do_not_extend_life P P' u html now t c (rs : list (N * Request)) :
  rejected_input url_parses (Some u) = false →
  truthy (NodeCache.get now (cacheKey u) c) = false →
  rendered P u = inr html →
  html ≠ "" →
  Forall (λ x, x.1 < now + render_time P u + 3600 * 1000
               ∧ ∃ P', x.2 = Render P' (Some u)) rs →
  now + render_time P u + 3600 * 1000 <= t →
  let c' := (serve_all url_parses ((now, Render P (Some u)) :: rs) c).2 in
  In (Launch launch_options) (trace (GET_render url_parses P' (Some u) t c')).
Proof.
  intros Hq Hmiss Hr Hne Hrs Ht c'. subst c'. simpl.
  fold (GET_render url_parses P (Some u) now c).
  destruct (run_fresh url_parses P u now c html Hq Hmiss Hr) as [_ Hc].
  assert (Hshow : ∀ t, t < now + render_time P u + 3600 * 1000 →
            NodeCache.get t (cacheKey u)
              (cache (GET_render url_parses P (Some u) now c)) = Some html).
  { intros t' Ht'. rewrite Hc, get_set_eq.
    rewrite bool_decide_eq_true_2; [done|]. unfold NodeCache.ttl_ms. simpl. lia. }
  destruct (serve_all_hits url_parses u html _ rs _ Hq Hne Hshow Hrs) as (_ & _ & Hsame).
  destruct (serve_all url_parses rs _) as [tr' c']. simpl in *. subst c'.
  apply launch_on_miss; [done|].
  rewrite Hc, get_set_eq.
  rewrite bool_decide_eq_false_2; [done|]. unfold NodeCache.ttl_ms. simpl. lia.
Qed.

(** X13: in [POST /clear-cache] a url that is missing or the empty string
    is falsy, so the request flushes the whole cache: its effects are the
    flush and the 200 "All cache cleared", and afterwards every key reads
    absent. *)
Theorem clear_cache_falsy_url_flushes b now c (k : string) (t : N) :
  truthy b = false →
  let s := POST_clear_cache b now c in
  trace s = [CacheFlushAll;
             Send (json_response 200 [("message", "All cache cleared")])]
  ∧ cache s = ∅
  ∧ NodeCache.get t k (cache s) = None.
Proof.
  intros Hb s. subst s. unfold POST_clear_cache, serve, post_clear_cache.
  rewrite Hb. simpl. split_and!; [done..|]. apply get_flushAll.
Qed.

(** X14: the two 400 answers of [GET /render]: a missing or empty [url]
    is answered "URL parameter is required", a non-empty one that does not
    parse "Invalid URL provided". *)
Theorem rejection_message P q now c :
  rejected_input url_parses q = true →
  sends (trace (GET_render url_parses P q now c))
  = [json_response 400
       [("error", if truthy q then "Invalid URL provided"
                  else "URL parameter is required")]].
Proof.
  intros Hrej. destruct q as [u|]; [|done]. simpl in Hrej.
  unfold_handler. simpl. destruct (String.eqb u ""); simpl; [done|].
  simpl in Hrej. apply negb_true_iff in Hrej. by rewrite Hrej.
Qed.

(** X15: [browser.close()] is called exactly when a browser was acquired:
    the url is valid, the lookup missed and [puppeteer.launch] resolved.
    A request that never launched, or whose launch was rejected, never
    calls it. *)
Theorem close_iff_acquired P q now c :
  In Close (trace (GET_render url_parses P q now c))
  ↔ rejected_input url_parses q = false
    ∧ truthy (NodeCache.get now (cacheKey (js_string q)) c) = false
    ∧ release P = [Close].
Proof.
  destruct (rejected_input url_parses q) eqn:Hq.
  { destruct (run_rejected url_parses P q now c Hq) as [m ->]. simpl.
    split; [intros [|[]]; discriminate | by intros [? _]]. }
  destruct (accepted_input _ _ Hq) as (u & -> & _ & _). simpl.
  destruct (truthy (NodeCache.get now (cacheKey u) c)) eqn:Hc.
  { rewrite (run_hit url_parses P u now c Hq Hc). simpl.
    split; [intros [|[|[|[]]]]; discriminate | by intros (_ & ? & _)]. }
  destruct (rendered P u) as [e|html] eqn:Hr.
  - destruct (run_failed url_parses P u now c e Hq Hc Hr) as [(n & Hn & ->) _].
    unfold release. destruct (settled (launch P launch_options));
      script_prefix n; simpl; split;
      try (by intros (_ & _ & ?)); try (intros _; split_and!; done);
      try tauto; intros H; repeat (destruct H as [H|H]; [discriminate|]);
      by destruct H.
  - destruct (run_fresh url_parses P u now c html Hq Hc Hr) as [-> _].
    rewrite (rendered_launch _ _ _ Hr). simpl. split; [done | tauto].
Qed.

(** X16: the only cache write of [GET /render] stores, under the key of
    the request's url, the markup of a render that ran to the end: a
    [cache.set(k, v)] happens exactly when the url is valid, the lookup
    missed, the render resolved to [v] and [k] is the url's key. *)
Theorem cache_set_only_on_success P q now c (k v : string) :
  In (CacheSet k v) (trace (GET_render url_parses P q now c))
  ↔ rejected_input url_parses q = false
    ∧ truthy (NodeCache.get now (cacheKey (js_string q)) c) = false
    ∧ rendered P (js_string q) = inr v
    ∧ k = cacheKey (js_string q).
Proof.
  destruct (rejected_input url_parses q) eqn:Hq.
  { destruct (run_rejected url_parses P q now c Hq) as [m ->]. simpl.
    split; [intros [|[]]; discriminate | by intros [? _]]. }
  destruct (accepted_input _ _ Hq) as (u & -> & _ & _). simpl.
  destruct (truthy (NodeCache.get now (cacheKey u) c)) eqn:Hc.
  { rewrite (run_hit url_parses P u now c Hq Hc). simpl.
    split; [intros [|[|[|[]]]]; discriminate | by intros (_ & ? & _)]. }
  destruct (rendered P u) as [e|html] eqn:Hr.
  - destruct (run_failed url_parses P u now c e Hq Hc Hr) as [(n & Hn & ->) _].
    unfold release. destruct (settled (launch P launch_options));
      script_prefix n; simpl; split;
      try (by intros (_ & _ & ? & _));
      intros H; repeat (destruct H as [H|H]; [discriminate|]); by destruct H.
  - destruct (run_fresh url_parses P u now c html Hq Hc Hr) as [-> _].
    simpl. split.
    + intros H. repeat (destruct H as [H|H]; [try discriminate|]);
        [|by destruct H]. by injection H as <- <-.
    + intros (_ & _ & [= ->] & ->). do 9 right. by left.
Qed.

End Edges.

(** ** Concrete runs of the further properties *)

Lemma render_frame_witness :
  let s := GET_render absolute_url (renders "<html>FRESH</html>")
             (Some "https://x.com") 1 example_cache in
  "https://example.com" ≠ js_string (Some "https://x.com")
  ∧ cache s !! cacheKey "https://example.com"
    = example_cache !! cacheKey "https://example.com"
  ∧ NodeCache.get 5000 (cacheKey "https://example.com") (cache s)
    = NodeCache.get 5000 (cacheKey "https://example.com") example_cache.
Proof.
  intros s.
  assert (H : "https://example.com" ≠ js_string (Some "https://x.com"))
    by discriminate.
  split; [exact H|].
  exact (render_frame absolute_url (renders "<html>FRESH</html>")
           (Some "https://x.com") 1 example_cache "https://example.com" 5000 H).
Defined.

Lemma render_reads_one_key_witness :
  let P := renders "<html>FRESH</html>" in
  let q := Some "https://example.com" in
  let c2 := NodeCache.set cache_options 7 (cacheKey "https://x.com") "<html>X</html>"
              example_cache in
  NodeCache.get 9 (cacheKey (js_string q)) example_cache
  = NodeCache.get 9 (cacheKey (js_string q)) c2
  ∧ trace (GET_render absolute_url P q 9 example_cache)
    = trace (GET_render absolute_url P q 9 c2).
Proof.
  intros P q c2.
  assert (H : NodeCache.get 9 (cacheKey (js_string q)) example_cache
              = NodeCache.get 9 (cacheKey (js_string q)) c2) by reflexivity.
  split; [exact H|].
  exact (proj1 (render_reads_one_key absolute_url P q 9 example_cache c2 H)).
Defined.

Lemma clear_then_render_misses_witness :
  let P := renders "<html>FRESH</html>" in
  rejected_input absolute_url (Some "https://example.com") = false
  ∧ truthy (Some "") = false
  ∧ In (Launch launch_options)
       (trace (GET_render absolute_url P (Some "https://example.com") 9
                 (cache (POST_clear_cache (Some "https://example.com") 5 example_cache))))
  ∧ In (Launch launch_options)
       (trace (GET_render absolute_url P (Some "https://example.com") 9
                 (cache (POST_clear_cache (Some "") 5 example_cache)))).
Proof.
  intros P.
  assert (H1 : rejected_input absolute_url (Some "https://example.com") = false)
    by reflexivity.
  assert (H2 : truthy (Some "") = false) by reflexivity.
  split; [exact H1|]. split; [exact H2|].
  exact (clear_then_render_misses absolute_url P "https://example.com" (Some "")
           5 9 example_cache H1 H2).
Defined.

Lemma clear_other_url_invisible_witness :
  let P := renders "<html>FRESH</html>" in
  let c' := cache (POST_clear_cache (Some "https://x.com") 5 example_cache) in
  "https://x.com" ≠ "" ∧ "https://x.com" ≠ "https://example.com"
  ∧ trace (GET_render absolute_url P (Some "https://example.com") 9 c')
    = trace (GET_render absolute_url P (Some "https://example.com") 9 example_cache)
  ∧ NodeCache.get 9 (cacheKey "https://example.com") c'
    = NodeCache.get 9 (cacheKey "https://example.com") example_cache.
Proof.
  intros P c'.
  assert (H1 : "https://x.com" ≠ "") by discriminate.
  assert (H2 : "https://x.com" ≠ "https://example.com") by discriminate.
  split; [exact H1|]. split; [exact H2|].
  exact (clear_other_url_invisible absolute_url P "https://x.com"
           "https://example.com" 5 9 example_cache H1 H2).
Defined.

Lemma serve_all_keys_accepted_witness :
  let rs := [(0, Render (renders "<html>FRESH</html>") (Some "https://x.com"));
             (10000, Render (navigation_fails "timeout") (Some "https://example.com"));
             (60000, Render (renders "") (Some "not-a-url"));
             (70000, ClearCache (Some "https://example.com"));
             (80000, Render (renders "<html>E</html>") (Some "https://example.com"))] in
  keys_accepted absolute_url ∅
  ∧ keys_accepted absolute_url (serve_all absolute_url rs ∅).2.
Proof.
  intros rs.
  assert (H : keys_accepted absolute_url ∅).
  { intros k e Hk. rewrite lookup_empty in Hk. discriminate. }
  split; [exact H|].
  exact (serve_all_keys_accepted absolute_url rs ∅ H).
Defined.

Lemma hits_cost_one_render_witness :
  let P := renders "<html>FRESH</html>" in
  let rs := [(4000, Render (navigation_fails "timeout") (Some "https://x.com"));
             (3600000, Render (renders "<html>LATER</html>") (Some "https://x.com"))] in
  let tr := (serve_all absolute_url ((0, Render P (Some "https://x.com")) :: rs) ∅).1 in
  rejected_input absolute_url (Some "https://x.com") = false
  ∧ truthy (NodeCache.get 0 (cacheKey "https://x.com") ∅) = false
  ∧ rendered P "https://x.com" = inr "<html>FRESH</html>"
  ∧ length (List.filter is_launch tr) = 1%nat
  ∧ sends tr = replicate 3 (html_response "<html>FRESH</html>").
Proof.
  intros P rs tr.
  assert (H1 : rejected_input absolute_url (Some "https://x.com") = false)
    by reflexivity.
  assert (H2 : truthy (NodeCache.get 0 (cacheKey "https://x.com") ∅) = false)
    by reflexivity.
  assert (H3 : rendered P "https://x.com" = inr "<html>FRESH</html>")
    by reflexivity.
  assert (H4 : "<html>FRESH</html>" ≠ "") by discriminate.
  assert (H5 : Forall (λ x, x.1 < 0 + render_time P "https://x.com" + 3600 * 1000
                            ∧ ∃ P', x.2 = Render P' (Some "https://x.com")) rs).
  { repeat constructor; simpl; try (by eexists); vm_compute; reflexivity. }
  split; [exact H1|]. split; [exact H2|]. split; [exact H3|].
  exact (hits_cost_one_render absolute_url P "https://x.com" "<html>FRESH</html>"
           0 ∅ rs H1 H2 H3 H4 H5).
Defined.

Lemma hits_do_not_extend_life_witness :
  let P := renders "<html>FRESH</html>" in
  let rs := [(3600000, Render P (Some "https://x.com"))] in
  let c' := (serve_all absolute_url ((0, Render P (Some "https://x.com")) :: rs) ∅).2 in
  rejected_input absolute_url (Some "https://x.com") = false
  ∧ rendered P "https://x.com" = inr "<html>FRESH</html>"
  ∧ 0 + render_time P "https://x.com" + 3600 * 1000 <= 3603327
  ∧ In (Launch launch_options)
       (trace (GET_render absolute_url P (Some "https://x.com") 3603327 c')).
Proof.
  intros P rs c'.
  assert (H1 : rejected_input absolute_url (Some "https://x.com") = false)
    by reflexivity.
  assert (H2 : truthy (NodeCache.get 0 (cacheKey "https://x.com") ∅) = false)
    by reflexivity.
  assert (H3 : rendered P "https://x.com" = inr "<html>FRESH</html>")
    by reflexivity.
  assert (H4 : "<html>FRESH</html>" ≠ "") by discriminate.
  assert (H5 : Forall (λ x, x.1 < 0 + render_time P "https://x.com" + 3600 * 1000
                            ∧ ∃ P', x.2 = Render P' (Some "https://x.com")) rs).
  { repeat constructor; simpl; try (by eexists); vm_compute; reflexivity. }
  assert (H6 : 0 + render_time P "https://x.com" + 3600 * 1000 <= 3603327).
  { vm_compute. discriminate. }
  split; [exact H1|]. split; [exact H3|]. split; [exact H6|].
  exact (hits_do_not_extend_life absolute_url P P "https://x.com"
           "<html>FRESH</html>" 0 3603327 ∅ rs H1 H2 H3 H4 H5 H6).
Defined.

Lemma clear_cache_falsy_url_flushes_witness :
  let s := POST_clear_cache (Some "") 5 example_cache in
  truthy (Some "") = false
  ∧ trace s = [CacheFlushAll;
               Send (json_response 200 [("message", "All cache cleared")])]
  ∧ cache s = ∅
  ∧ NodeCache.get 5 (cacheKey "https://example.com") (cache s) = None.
Proof.
  intros s.
  assert (H : truthy (Some "") = false) by reflexivity.
  split; [exact H|].
  exact (clear_cache_falsy_url_flushes (Some "") 5 example_cache
           (cacheKey "https://example.com") 5 H).
Defined.

Lemma rejection_message_witness :
  rejected_input absolute_url (Some "") = true
  ∧ sends (trace (GET_render absolute_url (renders "<html>FRESH</html>")
                    (Some "") 0 example_cache))
    = [json_response 400 [("error", "URL parameter is required")]].
Proof.
  assert (H : rejected_input absolute_url (Some "") = true) by reflexivity.
  split; [exact H|].
  exact (rejection_message absolute_url (renders "<html>FRESH</html>")
           (Some "") 0 example_cache H).
Defined.
